(** * Document analysis tool: a shallow embedding of [document_analysis.py]

    The program is a thin client: it acquires a file from the user
    interface, uploads it with one HTTP POST, references the uploaded file
    in one chat-completion call and displays the answer.  Everything it
    does is an effect on the outside world, so the embedding is a small
    state-and-exception monad over an explicit trace of the effects, and
    the outside world (environment, HTTP service, chat service, image
    decoder, user) is a record of answers the program is run against. *)

From Stdlib Require Import ZArith List String Ascii Bool Lia DecimalString.
From Stdlib.Strings Require Import Byte.
Import ListNotations.
Open Scope string_scope.

(* ================================================================== *)
(** * Python values *)
(* ================================================================== *)

Module Py.

(** The Python values the program handles: what [json()] can return
    and the literals the program builds for its requests.  A [str] is
    a sequence of code points below 256; a [float] is kept as the two
    observations the program can make of it, whether it is nonzero and
    how [repr] prints it. *)
#[warnings="-register-all"] Inductive PyVal : Type :=
| PyNone
| PyBool (b : bool)
| PyInt (z : Z)
| PyFloat (nonzero : bool) (shown : string)
| PyStr (s : string)
| PyList (l : list PyVal)
| PyDict (d : list (string * PyVal)).

(** [bool(v)], as used by [not v] and [a and b]. *)
Definition truthy (v : PyVal) : bool :=
  match v with
  | PyNone => false
  | PyBool b => b
  | PyInt z => negb (z =? 0)%Z
  | PyFloat nz _ => nz
  | PyStr s => negb (s =? EmptyString)
  | PyList l => match l with [] => false | _ => true end
  | PyDict d => match d with [] => false | _ => true end
  end.

(** [type(v).__name__] *)
Definition type_name (v : PyVal) : string :=
  match v with
  | PyNone => "NoneType"
  | PyBool _ => "bool"
  | PyInt _ => "int"
  | PyFloat _ _ => "float"
  | PyStr _ => "str"
  | PyList _ => "list"
  | PyDict _ => "dict"
  end.

(** [d.get(k)] on the items of a dict: [None] of Python is [None] here
    only when the key is missing. *)
Fixpoint dict_get (k : string) (d : list (string * PyVal)) : option PyVal :=
  match d with
  | [] => None
  | (k', v) :: rest => if k' =? k then Some v else dict_get k rest
  end.

(** [str(n)] for an int. *)
Definition str_of_int (z : Z) : string := NilZero.string_of_int (Z.to_int z).

Definition squote : ascii := "'"%char.
Definition dquote : ascii := "034"%char.
Definition backslash : ascii := "\"%char.

Fixpoint mem_char (c : ascii) (s : string) : bool :=
  match s with
  | EmptyString => false
  | String c' s' => (c' =? c)%char || mem_char c s'
  end.

Definition hex_digit (n : nat) : ascii :=
  if (n <? 10)%nat then ascii_of_nat (48 + n) else ascii_of_nat (87 + n).

(** [str.isprintable] on one code point below 256. *)
Definition printable (n : nat) : bool :=
  ((32 <=? n)%nat && (n <? 127)%nat) || ((161 <=? n)%nat && negb (n =? 173)%nat).

Definition repr_char (quote c : ascii) : string :=
  let n := nat_of_ascii c in
  if (c =? backslash)%char then String backslash (String backslash EmptyString)
  else if (c =? quote)%char then String backslash (String quote EmptyString)
  else if (n =? 9)%nat then String backslash "t"
  else if (n =? 10)%nat then String backslash "n"
  else if (n =? 13)%nat then String backslash "r"
  else if printable n then String c EmptyString
  else String backslash
         (String "x" (String (hex_digit (n / 16)) (String (hex_digit (n mod 16)) EmptyString))).

Fixpoint repr_chars (quote : ascii) (s : string) : string :=
  match s with
  | EmptyString => EmptyString
  | String c s' => repr_char quote c ++ repr_chars quote s'
  end.

(** [repr(s)] for a str: single quotes unless the text has a single
    quote and no double quote. *)
Definition repr_str (s : string) : string :=
  let quote := if mem_char squote s && negb (mem_char dquote s) then dquote else squote in
  String quote (repr_chars quote s ++ String quote EmptyString).

(** [repr(v)] *)
Fixpoint py_repr (v : PyVal) : string :=
  match v with
  | PyNone => "None"
  | PyBool true => "True"
  | PyBool false => "False"
  | PyInt z => str_of_int z
  | PyFloat _ shown => shown
  | PyStr s => repr_str s
  | PyList l =>
      "[" ++
      (fix items (l : list PyVal) : string :=
         match l with
         | [] => EmptyString
         | x :: r =>
             match r with
             | [] => py_repr x
             | _ :: _ => py_repr x ++ ", " ++ items r
             end
         end) l ++ "]"
  | PyDict d =>
      "{" ++
      (fix items (d : list (string * PyVal)) : string :=
         match d with
         | [] => EmptyString
         | (k, x) :: r =>
             match r with
             | [] => repr_str k ++ ": " ++ py_repr x
             | _ :: _ => repr_str k ++ ": " ++ py_repr x ++ ", " ++ items r
             end
         end) d ++ "}"
  end.

(** [str(v)], which is what an f-string field [{v}] inserts. *)
Definition py_str (v : PyVal) : string :=
  match v with
  | PyStr s => s
  | _ => py_repr v
  end.

End Py.
Import Py.

(* ================================================================== *)
(** * Text helpers *)
(* ================================================================== *)

(** [s.startswith(p)] *)
Definition startswith (s p : string) : bool := prefix p s.

(** [sub in s], as a proposition and as a test. *)
Definition contains (sub s : string) : Prop :=
  exists pre post, s = pre ++ sub ++ post.

Fixpoint containsb (sub s : string) : bool :=
  prefix sub s ||
  match s with
  | EmptyString => false
  | String _ s' => containsb sub s'
  end.

(* ================================================================== *)
(** * The outside world *)
(* ================================================================== *)

(** An exception object that is an instance of [Exception]: its class
    name and [str(e)].  These are the exceptions the external calls
    raise and the ones [except Exception] catches. *)
Record Exn : Type := mkExn { exn_type : string; exn_str : string }.

(** What a call into a library does: it returns or it raises. *)
Inductive Outcome (A : Type) : Type :=
| Returns (a : A)
| Raises (e : Exn).
Arguments Returns {A} a.
Arguments Raises {A} e.

(** [requests.Response], with the outcome of calling [.json()]. *)
Record Response : Type := mkResponse {
  status_code : Z;
  text : string;
  json : Outcome PyVal
}.

(** One entry of the [files=] argument: [(filename, BytesIO(bytes), mime_type)]. *)
Record FilePart : Type := mkFilePart {
  fp_filename : string;
  fp_content : list byte;
  fp_content_type : option string
}.

(** The arguments of [requests.post(url, headers=, files=, data=)]. *)
Record PostRequest : Type := mkPostRequest {
  post_url : string;
  post_headers : list (string * string);
  post_files : list (string * FilePart);
  post_data : list (string * string)
}.

(** The arguments of [client.chat.completions.create(model=, messages=)]. *)
Record ChatRequest : Type := mkChatRequest {
  chat_model : string;
  chat_messages : PyVal
}.

(** The parts of the chat completion object the program reads:
    [response.choices[0].message.content]. *)
Record ChatMessage : Type := mkChatMessage { content : PyVal }.
Record Choice : Type := mkChoice { message : ChatMessage }.
Record ChatCompletion : Type := mkChatCompletion { choices : list Choice }.

(** A decoded [PIL.Image.Image]; such an object is always truthy. *)
Record Image : Type := mkImage { img_format : string; img_size : Z * Z }.

(** Streamlit's [UploadedFile]: a [BytesIO] with a MIME type and, when
    the attribute exists, a name.  Its read position is part of the
    program state below. *)
Record UploadedFile : Type := mkUploadedFile {
  uf_value : list byte;
  uf_type : option string;
  uf_name : option string
}.

(** Everything the program does to the outside, in program order. *)
Inductive Event : Type :=
| EvRequestsPost (r : PostRequest)
| EvChatCreate (r : ChatRequest)
| EvImageOpen (data : list byte)
| EvStTitle (body : string)
| EvStWrite (v : PyVal)
| EvStRadio (label : string) (options : list string)
| EvStFileUploader (label : string) (types : list string)
| EvStCameraInput (label : string)
| EvStImage (img : Image) (caption : string) (use_column_width : bool)
| EvStWarning (body : string)
| EvStSuccess (body : string)
| EvStError (body : string).

(** The answers of the outside world for one run of the script. *)
Record World : Type := mkWorld {
  (** [os.getenv] of the key, after [load_dotenv()] *)
  getenv_OPENAI_API_KEY : option string;
  requests_post : PostRequest -> Outcome Response;
  chat_completions_create : ChatRequest -> Outcome ChatCompletion;
  (** [Image.open] on the bytes from the read position on: the outcome
      and how many bytes it consumed *)
  Image_open : list byte -> Outcome Image * nat;
  st_radio : string;
  st_file_uploader : option UploadedFile;
  st_camera_input : option UploadedFile
}.

(** HTTP traffic, as opposed to what goes to the user interface. *)
Definition is_network_call (e : Event) : bool :=
  match e with
  | EvRequestsPost _ | EvChatCreate _ => true
  | _ => false
  end.

Fixpoint post_requests (t : list Event) : list PostRequest :=
  match t with
  | [] => []
  | EvRequestsPost r :: t' => r :: post_requests t'
  | _ :: t' => post_requests t'
  end.

Fixpoint chat_requests (t : list Event) : list ChatRequest :=
  match t with
  | [] => []
  | EvChatCreate r :: t' => r :: chat_requests t'
  | _ :: t' => chat_requests t'
  end.

Fixpoint image_opens (t : list Event) : list (list byte) :=
  match t with
  | [] => []
  | EvImageOpen d :: t' => d :: image_opens t'
  | _ :: t' => image_opens t'
  end.

(* ================================================================== *)
(** * The effect monad *)
(* ================================================================== *)

Module Eff.

(** How a piece of the script ends: with a value, with an [Exception]
    on its way up, or halted by [st.stop()], which no
    [except Exception] clause intercepts. *)
Inductive Res (A : Type) : Type :=
| Val (a : A)
| Exc (e : Exn)
| Stopped.
Arguments Val {A} a.
Arguments Exc {A} e.
Arguments Stopped {A}.

(** A computation takes the read position of the uploaded file and
    gives its end, the new read position and the events it emitted. *)
Definition M (A : Type) : Type := nat -> Res A * nat * list Event.

Definition ret {A} (a : A) : M A := fun c => (Val a, c, []).

Definition bind {A B} (m : M A) (k : A -> M B) : M B :=
  fun c =>
    match m c with
    | (Val a, c1, e1) =>
        match k a c1 with
        | (r, c2, e2) => (r, c2, (e1 ++ e2)%list)
        end
    | (Exc e, c1, e1) => (Exc e, c1, e1)
    | (Stopped, c1, e1) => (Stopped, c1, e1)
    end.

Definition raise {A} (e : Exn) : M A := fun c => (Exc e, c, []).

Definition stop {A} : M A := fun c => (Stopped, c, []).

Definition emit (ev : Event) : M unit := fun c => (Val tt, c, [ev]).

Definition lift {A} (o : Outcome A) : M A :=
  match o with
  | Returns a => ret a
  | Raises e => raise e
  end.

(** [try: m  except Exception as e: h e] *)
Definition try_except {A} (m : M A) (h : Exn -> M A) : M A :=
  fun c =>
    match m c with
    | (Exc e, c1, e1) =>
        match h e c1 with
        | (r, c2, e2) => (r, c2, (e1 ++ e2)%list)
        end
    | other => other
    end.

Definition result {A} (x : Res A * nat * list Event) : Res A := fst (fst x).
Definition position {A} (x : Res A * nat * list Event) : nat := snd (fst x).
Definition events {A} (x : Res A * nat * list Event) : list Event := snd x.

End Eff.
Import Eff.

Declare Scope eff_scope.
Delimit Scope eff_scope with eff.
Notation "x <- m ;; k" := (bind m (fun x => k))
  (at level 61, m at next level, right associativity) : eff_scope.
Notation "m ;; k" := (bind m (fun _ => k))
  (at level 61, right associativity) : eff_scope.
Open Scope eff_scope.

(* ================================================================== *)
(** * The script *)
(* ================================================================== *)

Definition pdf_mime : string := "application/pdf".

(** The fixed instruction text of [analyze_document]. *)
Definition prompt : string :=
"You are an assistant that analyzes documents.
        Based on the uploaded document, identifiy all information needed explain and complete this document

        Respond with:
        1. what is the primary purpose of this document
        2. who should fill out this document
        3. a full list of all information someone would need in order to fill out the form in its entirety
        ".

Definition default_filename : string := "uploaded_document".

Section Script.

Variable w : World.

(** The module-level global read by [analyze_document]. *)
Definition OPENAI_API_KEY : option string := getenv_OPENAI_API_KEY w.

Definition of_optional (o : option string) : PyVal :=
  match o with
  | Some s => PyStr s
  | None => PyNone
  end.

(** [v.startswith(p)]: only a str has the method. *)
Definition method_startswith (v : PyVal) (p : string) : M bool :=
  match v with
  | PyStr s => ret (startswith s p)
  | _ => raise (mkExn "AttributeError"
                  ("'" ++ type_name v ++ "' object has no attribute 'startswith'"))
  end.

(** [v.get(k)]: only a dict has the method; a missing key gives [None]. *)
Definition method_get (v : PyVal) (k : string) : M PyVal :=
  match v with
  | PyDict d => ret (match dict_get k d with Some x => x | None => PyNone end)
  | _ => raise (mkExn "AttributeError"
                  ("'" ++ type_name v ++ "' object has no attribute 'get'"))
  end.

(** [l[0]] *)
Definition first_item {A} (l : list A) : M A :=
  match l with
  | x :: _ => ret x
  | [] => raise (mkExn "IndexError" "list index out of range")
  end.

Definition call_requests_post (r : PostRequest) : M Response :=
  emit (EvRequestsPost r) ;; lift (requests_post w r).

Definition call_chat_create (r : ChatRequest) : M ChatCompletion :=
  emit (EvChatCreate r) ;; lift (chat_completions_create w r).

Definition status_ok (status : Z) : bool := ((status =? 200) || (status =? 201))%Z.

(** Lines 49-52: the purpose of the upload. *)
Definition choose_purpose (mime_type : option string) : M string :=
  is_image <- (if truthy (of_optional mime_type)
               then method_startswith (of_optional mime_type) "image/"
               else ret false) ;;
  ret (if is_image : bool then "vision" else "user_data").

(** The [messages=] literal of lines 71-79. *)
Definition chat_messages_for (file_id : PyVal) : PyVal :=
  PyList
    [ PyDict [("role", PyStr "system");
              ("content", PyStr "You are a helpful legal analysis assistant.")];
      PyDict [("role", PyStr "user");
              ("content",
               PyList [ PyDict [("type", PyStr "text"); ("text", PyStr prompt)];
                        PyDict [("type", PyStr "file");
                                ("file", PyDict [("file_id", file_id)])] ])] ].

Definition upload_request (file_bytes : list byte) (mime_type : option string)
    (filename purpose : string) : PostRequest :=
  {| post_url := "https://api.openai.com/v1/files";
     post_headers := [("Authorization", "Bearer " ++ py_str (of_optional OPENAI_API_KEY))];
     post_files := [("file", mkFilePart filename file_bytes mime_type)];
     post_data := [("purpose", purpose)] |}.

(** The [try:] block, lines 40-82. *)
Definition analyze_document_try (file_bytes : list byte) (mime_type : option string)
    (filename : string) : M PyVal :=
  purpose <- choose_purpose mime_type ;;
  upload_resp <- call_requests_post (upload_request file_bytes mime_type filename purpose) ;;
  if negb (status_ok (status_code upload_resp))
  then ret (PyStr ("Error uploading file: " ++ str_of_int (status_code upload_resp)
                     ++ " - " ++ text upload_resp))
  else
    upload_json <- lift (json upload_resp) ;;
    file_id <- method_get upload_json "id" ;;
    if negb (truthy file_id)
    then ret (PyStr ("Error uploading file: no file id returned: " ++ py_str upload_json))
    else
      response <- call_chat_create
                    {| chat_model := "gpt-5-nano";
                       chat_messages := chat_messages_for file_id |} ;;
      choice <- first_item (choices response) ;;
      ret (content (message choice)).

Definition analyze_document (file_bytes : list byte) (mime_type : option string)
    (filename : string) : M PyVal :=
  try_except
    (analyze_document_try file_bytes mime_type filename)
    (fun e => ret (PyStr ("Error during analysis: " ++ exn_str e))).

(** [uploaded_file.seek(0)] *)
Definition file_seek (pos : nat) : M unit := fun _ => (Val tt, pos, []).

(** [Image.open(uploaded_file)]: the decoder sees the bytes from the
    read position on and moves the position by what it consumed. *)
Definition call_Image_open (uploaded_file : UploadedFile) : M Image :=
  fun c =>
    let data := skipn c (uf_value uploaded_file) in
    match Image_open w data with
    | (Returns img, n) => (Val img, c + n, [EvImageOpen data])
    | (Raises e, n) => (Exc e, c + n, [EvImageOpen data])
    end.

(** [mime_type != "application/pdf"] *)
Definition not_pdf (mime_type : option string) : bool :=
  match mime_type with
  | Some s => negb (s =? pdf_mime)
  | None => true
  end.

Definition process_uploaded_file (uploaded_file : UploadedFile)
  : M (list byte * option string * option Image * string) :=
  let file_bytes := uf_value uploaded_file in
  let mime_type := uf_type uploaded_file in
  let filename := match uf_name uploaded_file with
                  | Some n => n
                  | None => default_filename
                  end in
  preview_image <-
    (if not_pdf mime_type
     then
       file_seek 0 ;;
       try_except
         (img <- call_Image_open uploaded_file ;; ret (Some img))
         (fun _ => emit (EvStWarning "Could not open the image for preview.") ;; ret None)
     else ret None) ;;
  ret (file_bytes, mime_type, preview_image, filename).

(** Lines 123-126: the preview or the notice.  [a and b] is [b] when
    [a] holds and is falsy otherwise. *)
Definition show_preview (mime_type : option string) (preview_image : option Image) : M unit :=
  match (if not_pdf mime_type then preview_image else None) with
  | Some img => emit (EvStImage img "Uploaded/Captured Image" true)
  | None => emit (EvStWrite (PyStr "PDF file uploaded."))
  end.

Definition main : M unit :=
  emit (EvStTitle "Document analysis tool") ;;
  emit (EvStWrite (PyStr "This tool analyzes documents using OpenAI's GPT-5-Nano model.")) ;;
  emit (EvStWrite (PyStr
    "Upload an image (JPEG/PNG) or PDF of the document, or capture one using your camera.")) ;;
  emit (EvStRadio "Choose input method:" ["Upload File"; "Capture Image"]) ;;
  let input_method := st_radio w in
  uploaded_file <-
    (if input_method =? "Upload File"
     then emit (EvStFileUploader "Choose a file" ["jpg"; "jpeg"; "png"; "pdf"]) ;;
          ret (st_file_uploader w)
     else emit (EvStCameraInput "Capture an image") ;;
          ret (st_camera_input w)) ;;
  match uploaded_file with
  | Some f =>
      quad <- process_uploaded_file f ;;
      let '(file_bytes, mime_type, preview_image, filename) := quad in
      show_preview mime_type preview_image ;;
      emit (EvStWrite (PyStr "Analyzing the document, please wait...")) ;;
      analysis_result <- analyze_document file_bytes mime_type filename ;;
      emit (EvStSuccess "Analysis Complete") ;;
      emit (EvStWrite analysis_result)
  | None => ret tt
  end.

(** The module body: lines 10-20 and the call of [main] at the end. *)
Definition script : M unit :=
  (if negb (truthy (of_optional OPENAI_API_KEY))
   then emit (EvStError "OpenAI API key not found in environment variable 'OPENAI_API_KEY'.") ;;
        stop
   else ret tt) ;;
  main.

End Script.

(** A run of the script starts with the uploaded file's read position
    wherever the previous run left it. *)
Definition run {A} (m : M A) (start : nat) : Res A * nat * list Event := m start.

(* ================================================================== *)
(** * Vocabulary of the properties *)
(* ================================================================== *)

(** The purpose tag the specification asks for. *)
Definition purpose_tag (mime_type : option string) : string :=
  match mime_type with
  | Some s => if startswith s "image/" then "vision" else "user_data"
  | None => "user_data"
  end.

(** The text of the handler at line 84. *)
Definition analysis_error (e : Exn) : PyVal :=
  PyStr ("Error during analysis: " ++ exn_str e).

(** The upload answered with a JSON object that has no usable [id]:
    the key is missing, or its value is falsy. *)
Definition no_file_id (resp : Response) (d : list (string * PyVal)) : Prop :=
  json resp = Returns (PyDict d) /\
  truthy (match dict_get "id" d with Some x => x | None => PyNone end) = false.

(** The upload answered with a JSON object whose [id] is a nonempty str. *)
Definition has_file_id (resp : Response) (id : string) : Prop :=
  exists d, json resp = Returns (PyDict d) /\
            dict_get "id" d = Some (PyStr id) /\ id <> EmptyString.

(** The file the user handed over, through the control the radio selects. *)
Definition selected_file (w : World) : option UploadedFile :=
  if st_radio w =? "Upload File" then st_file_uploader w else st_camera_input w.

Definition filename_of (f : UploadedFile) : string :=
  match uf_name f with
  | Some n => n
  | None => default_filename
  end.

(** The [file] object of the user message of a chat request. *)
Definition user_file_object (r : ChatRequest) : option PyVal :=
  match chat_messages r with
  | PyList [_; PyDict user] =>
      match dict_get "content" user with
      | Some (PyList [_; PyDict part]) => dict_get "file" part
      | _ => None
      end
  | _ => None
  end.

(** The upload request [analyze_document] sends for its arguments. *)
Definition sent_upload (w : World) (file_bytes : list byte) (mime_type : option string)
    (filename : string) : PostRequest :=
  upload_request w file_bytes mime_type filename (purpose_tag mime_type).

(** The chat request that references file [file_id]. *)
Definition chat_request_for (file_id : PyVal) : ChatRequest :=
  {| chat_model := "gpt-5-nano"; chat_messages := chat_messages_for file_id |}.

(** The reading of the upload-failure property in which the returned
    text carries the status code or the raw body. *)
Definition upload_failure_shows_status_or_body : Prop :=
  forall (w : World) (file_bytes : list byte) (mime_type : option string)
         (filename : string) (start : nat) (resp : Response),
    requests_post w (sent_upload w file_bytes mime_type filename) = Returns resp ->
    status_ok (status_code resp) = false \/ (exists d, no_file_id resp d) ->
    chat_requests (events (run (analyze_document w file_bytes mime_type filename) start)) = [] /\
    exists s,
      result (run (analyze_document w file_bytes mime_type filename) start) = Val (PyStr s) /\
      (contains (str_of_int (status_code resp)) s \/ contains (text resp) s).

(** An upload service that answers 200 with a JSON object without [id]. *)
Definition body_without_id : string :=
  "{" ++ String dquote ("object" ++ String dquote (": " ++ String dquote ("file" ++ String dquote "}"))).

Definition world_without_id : World :=
  {| getenv_OPENAI_API_KEY := Some "sk-test";
     requests_post := fun _ =>
       Returns {| status_code := 200;
                  text := body_without_id;
                  json := Returns (PyDict [("object", PyStr "file")]) |};
     chat_completions_create := fun _ => Returns {| choices := [] |};
     Image_open := fun _ => (Raises (mkExn "UnidentifiedImageError" "cannot identify image file"), 0);
     st_radio := "Upload File";
     st_file_uploader := None;
     st_camera_input := None |}.

(** An upload service that rejects the file: status 400 and an error body. *)
Definition body_bad_file : string :=
  "{" ++ String dquote ("error" ++ String dquote (":" ++ String dquote ("bad file" ++ String dquote "}"))).

Definition world_bad_file : World :=
  {| getenv_OPENAI_API_KEY := Some "sk-test";
     requests_post := fun _ =>
       Returns {| status_code := 400;
                  text := body_bad_file;
                  json := Returns (PyDict [("error", PyStr "bad file")]) |};
     chat_completions_create := fun _ => Returns {| choices := [] |};
     Image_open := fun _ => (Raises (mkExn "UnidentifiedImageError" "cannot identify image file"), 0);
     st_radio := "Upload File";
     st_file_uploader := None;
     st_camera_input := None |}.

(** A service that stores the file as [file-123] and answers the chat. *)
Definition response_file_123 : Response :=
  {| status_code := 200;
     text := "{" ++ String dquote ("id" ++ String dquote (": " ++ String dquote ("file-123" ++ String dquote "}")));
     json := Returns (PyDict [("id", PyStr "file-123")]) |}.

Definition answer_text : string := "1. primary purpose ... 2. who should fill ...".

Definition world_file_123 : World :=
  {| getenv_OPENAI_API_KEY := Some "sk-test";
     requests_post := fun _ => Returns response_file_123;
     chat_completions_create := fun _ =>
       Returns {| choices := [ {| message := {| content := PyStr answer_text |} |} ] |};
     Image_open := fun _ => (Returns (mkImage "PNG" (1, 1)%Z), 8);
     st_radio := "Upload File";
     st_file_uploader := None;
     st_camera_input := None |}.

(** A network that is down: the POST raises. *)
Definition connection_error : Exn := mkExn "ConnectionError" "connection refused".

Definition world_offline : World :=
  {| getenv_OPENAI_API_KEY := Some "sk-test";
     requests_post := fun _ => Raises connection_error;
     chat_completions_create := fun _ => Raises connection_error;
     Image_open := fun _ => (Returns (mkImage "PNG" (1, 1)%Z), 8);
     st_radio := "Upload File";
     st_file_uploader := None;
     st_camera_input := None |}.

(** An upload answered with status 200 and a body that is not JSON. *)
Definition json_error : Exn := mkExn "JSONDecodeError" "Expecting value: line 1 column 1 (char 0)".

Definition world_not_json : World :=
  {| getenv_OPENAI_API_KEY := Some "sk-test";
     requests_post := fun _ =>
       Returns {| status_code := 200; text := "<html>"; json := Raises json_error |};
     chat_completions_create := fun _ => Returns {| choices := [] |};
     Image_open := fun _ => (Returns (mkImage "PNG" (1, 1)%Z), 8);
     st_radio := "Upload File";
     st_file_uploader := None;
     st_camera_input := None |}.

(** The preview [process_uploaded_file] ends up with. *)
Definition preview_of (w : World) (f : UploadedFile) : option Image :=
  if not_pdf (uf_type f)
  then match Image_open w (uf_value f) with
       | (Returns img, _) => Some img
       | (Raises _, _) => None
       end
  else None.

(** What [main] shows before it looks at the file. *)
Definition header_events (w : World) : list Event :=
  [ EvStTitle "Document analysis tool";
    EvStWrite (PyStr "This tool analyzes documents using OpenAI's GPT-5-Nano model.");
    EvStWrite (PyStr
      "Upload an image (JPEG/PNG) or PDF of the document, or capture one using your camera.");
    EvStRadio "Choose input method:" ["Upload File"; "Capture Image"];
    if st_radio w =? "Upload File"
    then EvStFileUploader "Choose a file" ["jpg"; "jpeg"; "png"; "pdf"]
    else EvStCameraInput "Capture an image" ].

Definition pdf_notice : Event := EvStWrite (PyStr "PDF file uploaded.").
Definition waiting_message : Event := EvStWrite (PyStr "Analyzing the document, please wait...").
Definition success_banner : Event := EvStSuccess "Analysis Complete".
Definition preview_warning : Event := EvStWarning "Could not open the image for preview.".

(** The notice is on display. *)
Definition shows_pdf_notice (t : list Event) : bool :=
  existsb (fun e => match e with
                    | EvStWrite (PyStr s) => s =? "PDF file uploaded."
                    | _ => false
                    end) t.

Definition decode_error : Exn := mkExn "UnidentifiedImageError" "cannot identify image file".

(** A PNG upload whose bytes are no image, against a service that works. *)
Definition broken_png : UploadedFile :=
  {| uf_value := [x00; x01; x02]; uf_type := Some "image/png"; uf_name := Some "scan.png" |}.

Definition world_broken_png : World :=
  {| getenv_OPENAI_API_KEY := Some "sk-test";
     requests_post := fun _ => Returns response_file_123;
     chat_completions_create := fun _ =>
       Returns {| choices := [ {| message := {| content := PyStr answer_text |} |} ] |};
     Image_open := fun _ => (Raises decode_error, 3);
     st_radio := "Upload File";
     st_file_uploader := Some broken_png;
     st_camera_input := None |}.

(** A process without the key in its environment. *)
Definition world_without_key : World :=
  {| getenv_OPENAI_API_KEY := None;
     requests_post := fun _ => Returns response_file_123;
     chat_completions_create := fun _ =>
       Returns {| choices := [ {| message := {| content := PyStr answer_text |} |} ] |};
     Image_open := fun _ => (Raises decode_error, 3);
     st_radio := "Upload File";
     st_file_uploader := Some broken_png;
     st_camera_input := None |}.

(** The text of the startup error at line 16. *)
Definition missing_key_error : Event :=
  EvStError "OpenAI API key not found in environment variable 'OPENAI_API_KEY'.".


(** A service that hands out a number as the file id. *)
Definition world_numeric_id : World :=
  {| getenv_OPENAI_API_KEY := Some "sk-test";
     requests_post := fun _ =>
       Returns {| status_code := 201;
                  text := "{" ++ String dquote ("id" ++ String dquote ": 7}");
                  json := Returns (PyDict [("id", PyInt 7)]) |};
     chat_completions_create := fun _ =>
       Returns {| choices := [ {| message := {| content := PyStr answer_text |} |} ] |};
     Image_open := fun _ => (Raises decode_error, 0);
     st_radio := "Upload File";
     st_file_uploader := None;
     st_camera_input := None |}.

(** A camera capture that decodes, against a service that works. *)
Definition captured_jpeg : UploadedFile :=
  {| uf_value := [xff; xd8; xff; xe0]; uf_type := Some "image/jpeg"; uf_name := None |}.

Definition decoded_jpeg : Image := mkImage "JPEG" (640, 480)%Z.

Definition world_camera : World :=
  {| getenv_OPENAI_API_KEY := Some "sk-test";
     requests_post := fun _ => Returns response_file_123;
     chat_completions_create := fun _ =>
       Returns {| choices := [ {| message := {| content := PyStr answer_text |} |} ] |};
     Image_open := fun _ => (Returns decoded_jpeg, 4);
     st_radio := "Capture Image";
     st_file_uploader := None;
     st_camera_input := Some captured_jpeg |}.

(** A PDF upload while the network is down. *)
Definition some_pdf : UploadedFile :=
  {| uf_value := [x25; x50; x44; x46]; uf_type := Some pdf_mime; uf_name := Some "form.pdf" |}.

Definition world_pdf_offline : World :=
  {| getenv_OPENAI_API_KEY := Some "sk-test";
     requests_post := fun _ => Raises connection_error;
     chat_completions_create := fun _ => Raises connection_error;
     Image_open := fun _ => (Returns decoded_jpeg, 4);
     st_radio := "Upload File";
     st_file_uploader := Some some_pdf;
     st_camera_input := None |}.

(** The user has not chosen a file yet. *)
Definition world_idle : World :=
  {| getenv_OPENAI_API_KEY := Some "sk-test";
     requests_post := fun _ => Returns response_file_123;
     chat_completions_create := fun _ =>
       Returns {| choices := [ {| message := {| content := PyStr answer_text |} |} ] |};
     Image_open := fun _ => (Returns decoded_jpeg, 4);
     st_radio := "Upload File";
     st_file_uploader := None;
     st_camera_input := Some captured_jpeg |}.

(* ================================================================== *)
(** * Text lemmas *)
(* ================================================================== *)

Lemma prefix_app (p s : string) : prefix p (p ++ s) = true.
Proof.
  induction p as [|a p IH]; simpl.
  - destruct s; reflexivity.
  - destruct (ascii_dec a a) as [_|N]; [exact IH | contradiction].
Qed.

Lemma prefix_split (p s : string) :
  prefix p s = true -> exists post, s = p ++ post.
Proof.
  revert s; induction p as [|a p IH]; intros s H.
  - exists s; reflexivity.
  - destruct s as [|b s]; simpl in H; [discriminate|].
    destruct (ascii_dec a b) as [->|_]; [|discriminate].
    destruct (IH _ H) as [post ->]. exists post; reflexivity.
Qed.

Lemma containsb_complete (sub s : string) :
  contains sub s -> containsb sub s = true.
Proof.
  intros [pre [post ->]].
  induction pre as [|a pre IH]; simpl.
  - pose proof (prefix_app sub post) as H.
    destruct (sub ++ post); cbn [containsb]; rewrite H; reflexivity.
  - rewrite IH. apply orb_true_r.
Qed.

Lemma containsb_sound (sub s : string) :
  containsb sub s = true -> contains sub s.
Proof.
  induction s as [|a s IH]; cbn [containsb]; intros H.
  - rewrite orb_false_r in H. destruct (prefix_split _ _ H) as [post E].
    exists EmptyString, post. exact E.
  - apply orb_true_iff in H. destruct H as [H|H].
    + destruct (prefix_split _ _ H) as [post E]. exists EmptyString, post. exact E.
    + destruct (IH H) as [pre [post ->]]. exists (String a pre), post. reflexivity.
Qed.

Lemma string_app_assoc (a b c : string) : (a ++ b) ++ c = a ++ b ++ c.
Proof. induction a as [|x a IH]; simpl; congruence. Qed.

Lemma contains_after (pre sub s : string) : contains sub s -> contains sub (pre ++ s).
Proof.
  intros [p [q ->]]. exists (pre ++ p), q. rewrite string_app_assoc. reflexivity.
Qed.

Lemma contains_middle (pre sub post : string) : contains sub (pre ++ sub ++ post).
Proof. exists pre, post. reflexivity. Qed.

Lemma contains_end (pre sub : string) : contains sub (pre ++ sub).
Proof.
  exists pre, EmptyString.
  replace (sub ++ EmptyString) with sub; [reflexivity|].
  induction sub; simpl; congruence.
Qed.

(* ================================================================== *)
(** * Running [analyze_document] *)
(* ================================================================== *)

Lemma choose_purpose_run (mime_type : option string) (c : nat) :
  choose_purpose mime_type c = (Val (purpose_tag mime_type), c, []).
Proof.
  unfold choose_purpose, purpose_tag, bind, ret.
  destruct mime_type as [s|]; simpl; [|reflexivity].
  destruct s as [|a s]; simpl; [reflexivity|].
  unfold startswith. destruct (prefix "image/" (String a s)); reflexivity.
Qed.

Section AnalyzeDocument.

Variable w : World.
Variables (file_bytes : list byte) (mime_type : option string) (filename : string).
Variable start : nat.

Let request : PostRequest := sent_upload w file_bytes mime_type filename.

(** The try block up to the answer of the upload. *)
Lemma try_block_run :
  run (analyze_document_try w file_bytes mime_type filename) start =
  match requests_post w request with
  | Raises e => (Exc e, start, [EvRequestsPost request])
  | Returns resp =>
      if status_ok (status_code resp)
      then
        match json resp with
        | Raises e => (Exc e, start, [EvRequestsPost request])
        | Returns (PyDict d) =>
            let file_id := match dict_get "id" d with Some x => x | None => PyNone end in
            if truthy file_id
            then
              let creq := chat_request_for file_id in
              match chat_completions_create w creq with
              | Raises e => (Exc e, start, [EvRequestsPost request; EvChatCreate creq])
              | Returns r =>
                  match choices r with
                  | ch :: _ =>
                      (Val (content (message ch)), start,
                       [EvRequestsPost request; EvChatCreate creq])
                  | [] =>
                      (Exc (mkExn "IndexError" "list index out of range"), start,
                       [EvRequestsPost request; EvChatCreate creq])
                  end
              end
            else
              (Val (PyStr ("Error uploading file: no file id returned: "
                             ++ py_repr (PyDict d))),
               start, [EvRequestsPost request])
        | Returns j =>
            (Exc (mkExn "AttributeError"
                    ("'" ++ type_name j ++ "' object has no attribute 'get'")),
             start, [EvRequestsPost request])
        end
      else
        (Val (PyStr ("Error uploading file: " ++ str_of_int (status_code resp)
                       ++ " - " ++ text resp)),
         start, [EvRequestsPost request])
  end.
Proof.
  unfold run, analyze_document_try.
  unfold bind at 1. rewrite choose_purpose_run.
  change (upload_request w file_bytes mime_type filename (purpose_tag mime_type)) with request.
  unfold bind at 1. unfold call_requests_post, bind, emit, lift, ret, raise.
  destruct (requests_post w request) as [resp|e]; [|reflexivity].
  destruct (status_ok (status_code resp)); simpl; [|reflexivity].
  destruct (json resp) as [j|e]; [|reflexivity].
  destruct j; try reflexivity.
  cbn [method_get]. unfold ret.
  destruct (truthy _); simpl; [|reflexivity].
  unfold call_chat_create, bind, emit, lift, ret, raise.
  destruct (chat_completions_create w _) as [r|e]; [|reflexivity].
  destruct (choices r); reflexivity.
Qed.

(** The handler turns an exception of the try block into a text and
    lets every other end through. *)
Lemma handler_run :
  run (analyze_document w file_bytes mime_type filename) start =
  match run (analyze_document_try w file_bytes mime_type filename) start with
  | (Exc e, c, evs) => (Val (analysis_error e), c, evs)
  | other => other
  end.
Proof.
  unfold run, analyze_document, try_except, analysis_error, ret.
  destruct (analyze_document_try w file_bytes mime_type filename start) as [[r c] evs].
  destruct r; try reflexivity.
  rewrite app_nil_r. reflexivity.
Qed.

(** Nothing in the try block halts the script. *)
Lemma try_block_not_stopped :
  result (run (analyze_document_try w file_bytes mime_type filename) start) <> Stopped.
Proof.
  rewrite try_block_run. cbv zeta.
  repeat match goal with
         | |- context [match ?x with _ => _ end] => destruct x
         end; cbn [result fst]; discriminate.
Qed.

End AnalyzeDocument.

Ltac run_analyze := rewrite handler_run, try_block_run.

(** Reads the end, the events and the requests off a computed run,
    leaving texts as they are. *)
Ltac read_run :=
  cbv beta iota zeta delta
    [events result position fst snd chat_requests post_requests image_opens].

(* ================================================================== *)
(** * The upload gate *)
(* ================================================================== *)

(** On [world_without_id] the returned text shows Python's rendering of
    the parsed object and neither the status code nor the body. *)
Lemma without_id_run :
  run (analyze_document world_without_id [] (Some pdf_mime) "form.pdf") 0 =
  (Val (PyStr "Error uploading file: no file id returned: {'object': 'file'}"), 0,
   [EvRequestsPost (sent_upload world_without_id [] (Some pdf_mime) "form.pdf")]).
Proof. vm_compute. reflexivity. Qed.

(** C1, as stated, fails: with status 200 and the body
    [{"object": "file"}] the returned text contains neither [200] nor
    the body. *)
Lemma upload_failure_text_counterexample : ~ upload_failure_shows_status_or_body.
Proof.
  intros H.
  destruct (H world_without_id [] (Some pdf_mime) "form.pdf" 0
              (mkResponse 200 body_without_id (Returns (PyDict [("object", PyStr "file")]))))
    as [_ [s [Hs Hc]]].
  - reflexivity.
  - right. exists [("object", PyStr "file")]. split; reflexivity.
  - rewrite without_id_run in Hs. cbn [result fst] in Hs.
    injection Hs as <-.
    destruct Hc as [Hc|Hc]; apply containsb_complete in Hc; vm_compute in Hc; discriminate.
Qed.

(** C1, amended: a response with a status outside {200, 201} gives no
    chat request and the text [Error uploading file: <status> - <body>],
    which contains the status code and the body; a response with status
    200 or 201 whose JSON object has no usable [id] gives no chat request
    and the text [Error uploading file: no file id returned: ] followed
    by Python's rendering of the parsed object. *)
Theorem upload_failure_skips_chat :
  forall (w : World) (file_bytes : list byte) (mime_type : option string)
         (filename : string) (start : nat) (resp : Response),
    requests_post w (sent_upload w file_bytes mime_type filename) = Returns resp ->
    (status_ok (status_code resp) = false ->
     events (run (analyze_document w file_bytes mime_type filename) start)
       = [EvRequestsPost (sent_upload w file_bytes mime_type filename)] /\
     chat_requests (events (run (analyze_document w file_bytes mime_type filename) start)) = [] /\
     result (run (analyze_document w file_bytes mime_type filename) start)
       = Val (PyStr ("Error uploading file: " ++ str_of_int (status_code resp)
                       ++ " - " ++ text resp)) /\
     contains (str_of_int (status_code resp))
       ("Error uploading file: " ++ str_of_int (status_code resp) ++ " - " ++ text resp) /\
     contains (text resp)
       ("Error uploading file: " ++ str_of_int (status_code resp) ++ " - " ++ text resp)) /\
    (forall d, status_ok (status_code resp) = true -> no_file_id resp d ->
     events (run (analyze_document w file_bytes mime_type filename) start)
       = [EvRequestsPost (sent_upload w file_bytes mime_type filename)] /\
     chat_requests (events (run (analyze_document w file_bytes mime_type filename) start)) = [] /\
     result (run (analyze_document w file_bytes mime_type filename) start)
       = Val (PyStr ("Error uploading file: no file id returned: " ++ py_repr (PyDict d)))) /\
    (chat_requests (events (run (analyze_document w file_bytes mime_type filename) start)) <> [] ->
     status_ok (status_code resp) = true /\
     exists d, json resp = Returns (PyDict d) /\
               truthy (match dict_get "id" d with Some x => x | None => PyNone end) = true).
Proof.
  intros w fb mt fn start resp Hpost. split; [|split].
  - intros Hbad. run_analyze. rewrite Hpost, Hbad. read_run.
    repeat split.
    + apply contains_middle.
    + do 2 apply contains_after. apply contains_end.
  - intros d Hok [Hjson Hid]. run_analyze. rewrite Hpost, Hok, Hjson. cbv zeta.
    rewrite Hid. read_run. repeat split.
  - run_analyze. rewrite Hpost.
    destruct (status_ok (status_code resp)); [|read_run; congruence].
    destruct (json resp) as [j|e]; [|read_run; congruence].
    destruct j; try (read_run; congruence).
    cbv zeta.
    destruct (truthy _) eqn:Hid; [|read_run; congruence].
    intros _. split; [reflexivity|]. exists d. split; [reflexivity|exact Hid].
Qed.

Lemma upload_failure_skips_chat_witness :
  requests_post world_bad_file (sent_upload world_bad_file [] (Some pdf_mime) "form.pdf")
    = Returns (mkResponse 400 body_bad_file (Returns (PyDict [("error", PyStr "bad file")]))) /\
  status_ok 400 = false /\
  result (run (analyze_document world_bad_file [] (Some pdf_mime) "form.pdf") 0)
    = Val (PyStr ("Error uploading file: 400 - " ++ body_bad_file)) /\
  chat_requests (events (run (analyze_document world_bad_file [] (Some pdf_mime) "form.pdf") 0)) = [].
Proof.
  split; [reflexivity|]. split; [reflexivity|].
  destruct (upload_failure_skips_chat world_bad_file [] (Some pdf_mime) "form.pdf" 0
              (mkResponse 400 body_bad_file (Returns (PyDict [("error", PyStr "bad file")])))
              eq_refl) as [H _].
  destruct (H eq_refl) as [_ [Hchat [Hres _]]].
  split; [exact Hres | exact Hchat].
Defined.

(* ================================================================== *)
(** * Failures become text *)
(* ================================================================== *)

(** C2: [analyze_document] always ends with a value, never with an
    exception on its way to the caller.  Whatever exception the try
    block ends with is turned into [Error during analysis: <exception>];
    that covers a POST that raises, a body that [json()] refuses, a JSON
    value without a [get] method, a chat call that raises and an answer
    without choices. *)
Theorem analyze_document_never_raises :
  forall (w : World) (file_bytes : list byte) (mime_type : option string)
         (filename : string) (start : nat),
    (exists v, result (run (analyze_document w file_bytes mime_type filename) start) = Val v) /\
    (forall e,
       result (run (analyze_document_try w file_bytes mime_type filename) start) = Exc e ->
       result (run (analyze_document w file_bytes mime_type filename) start)
         = Val (PyStr ("Error during analysis: " ++ exn_str e))) /\
    (forall e,
       requests_post w (sent_upload w file_bytes mime_type filename) = Raises e ->
       result (run (analyze_document w file_bytes mime_type filename) start)
         = Val (PyStr ("Error during analysis: " ++ exn_str e))) /\
    (forall resp e,
       requests_post w (sent_upload w file_bytes mime_type filename) = Returns resp ->
       status_ok (status_code resp) = true ->
       json resp = Raises e ->
       result (run (analyze_document w file_bytes mime_type filename) start)
         = Val (PyStr ("Error during analysis: " ++ exn_str e))) /\
    (forall resp j,
       requests_post w (sent_upload w file_bytes mime_type filename) = Returns resp ->
       status_ok (status_code resp) = true ->
       json resp = Returns j ->
       (forall d, j <> PyDict d) ->
       result (run (analyze_document w file_bytes mime_type filename) start)
         = Val (PyStr ("Error during analysis: '" ++ type_name j
                         ++ "' object has no attribute 'get'"))) /\
    (forall resp id e,
       requests_post w (sent_upload w file_bytes mime_type filename) = Returns resp ->
       status_ok (status_code resp) = true ->
       has_file_id resp id ->
       chat_completions_create w (chat_request_for (PyStr id)) = Raises e ->
       result (run (analyze_document w file_bytes mime_type filename) start)
         = Val (PyStr ("Error during analysis: " ++ exn_str e))) /\
    (forall resp id,
       requests_post w (sent_upload w file_bytes mime_type filename) = Returns resp ->
       status_ok (status_code resp) = true ->
       has_file_id resp id ->
       chat_completions_create w (chat_request_for (PyStr id)) = Returns {| choices := [] |} ->
       result (run (analyze_document w file_bytes mime_type filename) start)
         = Val (PyStr "Error during analysis: list index out of range")).
Proof.
  intros w fb mt fn start. repeat split.
  - rewrite handler_run.
    destruct (run (analyze_document_try w fb mt fn) start) as [[r c] evs] eqn:E.
    destruct r as [v|e|].
    + exists v. reflexivity.
    + exists (analysis_error e). reflexivity.
    + exfalso. apply (try_block_not_stopped w fb mt fn start).
      rewrite E. reflexivity.
  - intros e H. rewrite handler_run.
    destruct (run (analyze_document_try w fb mt fn) start) as [[r c] evs].
    cbn [result fst] in H. subst r. reflexivity.
  - intros e H. run_analyze. rewrite H. reflexivity.
  - intros resp e H Hok Hj. run_analyze. rewrite H, Hok, Hj. reflexivity.
  - intros resp j H Hok Hj Hnd. run_analyze. rewrite H, Hok, Hj.
    destruct j; try reflexivity. exfalso. eapply Hnd. reflexivity.
  - intros resp id e H Hok [d [Hj [Hid Hne]]] Hchat. run_analyze.
    rewrite H, Hok, Hj, Hid. cbv zeta. cbn [truthy].
    apply String.eqb_neq in Hne. rewrite Hne. cbn [negb].
    unfold chat_request_for in *. rewrite Hchat. reflexivity.
  - intros resp id H Hok [d [Hj [Hid Hne]]] Hchat. run_analyze.
    rewrite H, Hok, Hj, Hid. cbv zeta. cbn [truthy].
    apply String.eqb_neq in Hne. rewrite Hne. cbn [negb].
    unfold chat_request_for in *. rewrite Hchat. reflexivity.
Qed.

Lemma analyze_document_never_raises_witness :
  requests_post world_offline (sent_upload world_offline [] (Some "image/png") "scan.png")
    = Raises connection_error /\
  result (run (analyze_document world_offline [] (Some "image/png") "scan.png") 0)
    = Val (PyStr "Error during analysis: connection refused").
Proof.
  split; [reflexivity|].
  destruct (analyze_document_never_raises world_offline [] (Some "image/png") "scan.png" 0)
    as [_ [_ [H _]]].
  exact (H connection_error eq_refl).
Defined.

(* ================================================================== *)
(** * The chat request *)
(* ================================================================== *)

(** C3: when the upload answers 200 or 201 with a JSON object whose
    [id] is a nonempty str, the function issues the upload and then the
    chat request once; the [file] object of the user message holds the
    [file_id] and nothing else; and when the chat call answers with a
    first choice, the function returns that choice's message content
    as it is. *)
Theorem upload_success_issues_one_chat :
  forall (w : World) (file_bytes : list byte) (mime_type : option string)
         (filename : string) (start : nat) (resp : Response) (id : string),
    requests_post w (sent_upload w file_bytes mime_type filename) = Returns resp ->
    status_ok (status_code resp) = true ->
    has_file_id resp id ->
    events (run (analyze_document w file_bytes mime_type filename) start)
      = [EvRequestsPost (sent_upload w file_bytes mime_type filename);
         EvChatCreate (chat_request_for (PyStr id))] /\
    chat_requests (events (run (analyze_document w file_bytes mime_type filename) start))
      = [chat_request_for (PyStr id)] /\
    user_file_object (chat_request_for (PyStr id)) = Some (PyDict [("file_id", PyStr id)]) /\
    (forall ch rest,
       chat_completions_create w (chat_request_for (PyStr id))
         = Returns {| choices := ch :: rest |} ->
       result (run (analyze_document w file_bytes mime_type filename) start)
         = Val (content (message ch))).
Proof.
  intros w fb mt fn start resp id Hpost Hok [d [Hj [Hid Hne]]].
  apply String.eqb_neq in Hne.
  assert (Hrun : run (analyze_document w fb mt fn) start =
                 match chat_completions_create w (chat_request_for (PyStr id)) with
                 | Raises e =>
                     (Val (analysis_error e), start,
                      [EvRequestsPost (sent_upload w fb mt fn);
                       EvChatCreate (chat_request_for (PyStr id))])
                 | Returns r =>
                     match choices r with
                     | ch :: _ =>
                         (Val (content (message ch)), start,
                          [EvRequestsPost (sent_upload w fb mt fn);
                           EvChatCreate (chat_request_for (PyStr id))])
                     | [] =>
                         (Val (analysis_error (mkExn "IndexError" "list index out of range")),
                          start,
                          [EvRequestsPost (sent_upload w fb mt fn);
                           EvChatCreate (chat_request_for (PyStr id))])
                     end
                 end).
  { run_analyze. rewrite Hpost, Hok, Hj, Hid. cbv zeta. cbn [truthy]. rewrite Hne.
    cbn [negb].
    destruct (chat_completions_create w (chat_request_for (PyStr id))) as [r|e];
      [destruct (choices r)|]; reflexivity. }
  assert (Hev : events (run (analyze_document w fb mt fn) start)
                = [EvRequestsPost (sent_upload w fb mt fn);
                   EvChatCreate (chat_request_for (PyStr id))]).
  { rewrite Hrun.
    destruct (chat_completions_create w (chat_request_for (PyStr id))) as [r|e];
      [destruct (choices r)|]; reflexivity. }
  split; [exact Hev|]. split; [rewrite Hev; reflexivity|]. split; [reflexivity|].
  intros ch rest Hchat. rewrite Hrun, Hchat. reflexivity.
Qed.

Lemma upload_success_issues_one_chat_witness :
  requests_post world_file_123 (sent_upload world_file_123 [] (Some "image/png") "scan.png")
    = Returns response_file_123 /\
  status_ok (status_code response_file_123) = true /\
  has_file_id response_file_123 "file-123" /\
  chat_requests (events (run (analyze_document world_file_123 [] (Some "image/png") "scan.png") 0))
    = [chat_request_for (PyStr "file-123")] /\
  result (run (analyze_document world_file_123 [] (Some "image/png") "scan.png") 0)
    = Val (PyStr answer_text).
Proof.
  assert (Hid : has_file_id response_file_123 "file-123").
  { exists [("id", PyStr "file-123")]. repeat split. discriminate. }
  split; [reflexivity|]. split; [reflexivity|]. split; [exact Hid|].
  destruct (upload_success_issues_one_chat world_file_123 [] (Some "image/png") "scan.png" 0
              response_file_123 "file-123" eq_refl eq_refl Hid) as [_ [Hchat [_ Hres]]].
  split; [exact Hchat|].
  exact (Hres {| message := {| content := PyStr answer_text |} |} [] eq_refl).
Defined.

(* ================================================================== *)
(** * The purpose tag *)
(* ================================================================== *)

(** The function sends exactly one upload request, the one built from
    its arguments and [purpose_tag]. *)
Lemma analyze_document_posts_once (w : World) (fb : list byte) (mt : option string)
    (fn : string) (start : nat) :
  post_requests (events (run (analyze_document w fb mt fn) start)) = [sent_upload w fb mt fn].
Proof.
  run_analyze. cbv zeta.
  destruct (requests_post w _) as [resp|e]; [|reflexivity].
  destruct (status_ok _); [|reflexivity].
  destruct (json resp) as [j|e]; [|reflexivity].
  destruct j; try reflexivity.
  destruct (truthy _); [|reflexivity].
  destruct (chat_completions_create w _) as [r|e]; [|reflexivity].
  destruct (choices r); reflexivity.
Qed.

(** C4: for every input the function issues one upload request, and the
    [purpose] form field of that request is [vision] exactly when the
    MIME type starts with [image/] and [user_data] otherwise. *)
Theorem purpose_follows_mime_type :
  forall (w : World) (file_bytes : list byte) (mime_type : option string)
         (filename : string) (start : nat),
    exists purpose,
      post_requests (events (run (analyze_document w file_bytes mime_type filename) start))
        = [upload_request w file_bytes mime_type filename purpose] /\
      post_data (upload_request w file_bytes mime_type filename purpose)
        = [("purpose", purpose)] /\
      (purpose = "vision" <-> exists s, mime_type = Some s /\ startswith s "image/" = true) /\
      (purpose = "user_data" <-> ~ exists s, mime_type = Some s /\ startswith s "image/" = true).
Proof.
  intros w fb mt fn start. exists (purpose_tag mt). split; [|split; [reflexivity|]].
  - apply analyze_document_posts_once.
  - unfold purpose_tag. destruct mt as [s|].
    + destruct (startswith s "image/") eqn:E; split; split.
      * intros _. exists s. split; [reflexivity|exact E].
      * reflexivity.
      * discriminate.
      * intros H. exfalso. apply H. exists s. split; [reflexivity|exact E].
      * discriminate.
      * intros [s' [[= <-] H]]. congruence.
      * intros _ [s' [[= <-] H]]. congruence.
      * reflexivity.
    + split; split.
      * discriminate.
      * intros [s [H _]]. discriminate.
      * intros _ [s [H _]]. discriminate.
      * reflexivity.
Qed.

(** C9: a MIME type that is [None] or the empty str selects
    [user_data]: the falsy value stops the [and] before the prefix test,
    which on [None] would raise, and the upload goes out with that tag. *)
Theorem falsy_mime_type_selects_user_data :
  forall (w : World) (file_bytes : list byte) (mime_type : option string)
         (filename : string) (start : nat),
    mime_type = None \/ mime_type = Some EmptyString ->
    result (run (choose_purpose mime_type) start) = Val "user_data" /\
    post_requests (events (run (analyze_document w file_bytes mime_type filename) start))
      = [upload_request w file_bytes mime_type filename "user_data"] /\
    post_data (upload_request w file_bytes mime_type filename "user_data")
      = [("purpose", "user_data")] /\
    result (run (method_startswith (of_optional None) "image/") start)
      = Exc (mkExn "AttributeError" "'NoneType' object has no attribute 'startswith'").
Proof.
  intros w fb mt fn start Hmt.
  assert (Htag : purpose_tag mt = "user_data") by (destruct Hmt; subst; reflexivity).
  split; [|split; [|split; reflexivity]].
  - unfold run. rewrite choose_purpose_run, Htag. reflexivity.
  - rewrite analyze_document_posts_once. unfold sent_upload. rewrite Htag. reflexivity.
Qed.

Lemma falsy_mime_type_selects_user_data_witness :
  (@None string = None \/ @None string = Some EmptyString) /\
  post_requests (events (run (analyze_document world_file_123 [] None "scan") 0))
    = [upload_request world_file_123 [] None "scan" "user_data"].
Proof.
  split; [left; reflexivity|].
  destruct (falsy_mime_type_selects_user_data world_file_123 [] None "scan" 0
              (or_introl eq_refl)) as [_ [H _]].
  exact H.
Defined.

(* ================================================================== *)
(** * Exceptions of the upload phase *)
(* ================================================================== *)

Lemma analysis_error_prefix (msg : string) :
  startswith ("Error during analysis: " ++ msg) "Error during analysis: " = true /\
  startswith ("Error during analysis: " ++ msg) "Error uploading file: " = false.
Proof.
  split.
  - unfold startswith. apply prefix_app.
  - reflexivity.
Qed.

(** C10: when the POST raises, or [json()] raises on the answer to a
    POST with status 200 or 201, no chat request is issued and the
    returned text is [Error during analysis: <exception>], which does not
    begin with [Error uploading file: ].  A run without a chat request
    returns a text with the upload prefix only when the upload was
    answered, with a status outside {200, 201} or with a JSON object
    without a usable [id]. *)
Theorem upload_exception_is_analysis_error :
  forall (w : World) (file_bytes : list byte) (mime_type : option string)
         (filename : string) (start : nat),
    (forall e,
       requests_post w (sent_upload w file_bytes mime_type filename) = Raises e \/
       (exists resp,
          requests_post w (sent_upload w file_bytes mime_type filename) = Returns resp /\
          status_ok (status_code resp) = true /\ json resp = Raises e) ->
       chat_requests (events (run (analyze_document w file_bytes mime_type filename) start)) = [] /\
       result (run (analyze_document w file_bytes mime_type filename) start)
         = Val (PyStr ("Error during analysis: " ++ exn_str e)) /\
       startswith ("Error during analysis: " ++ exn_str e) "Error during analysis: " = true /\
       startswith ("Error during analysis: " ++ exn_str e) "Error uploading file: " = false) /\
    (forall s,
       chat_requests (events (run (analyze_document w file_bytes mime_type filename) start)) = [] ->
       result (run (analyze_document w file_bytes mime_type filename) start) = Val (PyStr s) ->
       startswith s "Error uploading file: " = true ->
       exists resp,
         requests_post w (sent_upload w file_bytes mime_type filename) = Returns resp /\
         (status_ok (status_code resp) = false \/ exists d, no_file_id resp d)).
Proof.
  intros w fb mt fn start. split.
  - intros e H.
    assert (Hrun : run (analyze_document w fb mt fn) start
                   = (Val (analysis_error e), start, [EvRequestsPost (sent_upload w fb mt fn)])).
    { run_analyze. destruct H as [H|[resp [H [Hok Hj]]]].
      - rewrite H. reflexivity.
      - rewrite H, Hok, Hj. reflexivity. }
    rewrite Hrun. split; [reflexivity|]. split; [reflexivity|].
    apply analysis_error_prefix.
  - intros s. run_analyze. cbv zeta.
    destruct (requests_post w _) as [resp|e] eqn:Hpost.
    + destruct (status_ok (status_code resp)) eqn:Hok.
      * destruct (json resp) as [j|e] eqn:Hj.
        -- destruct j; try (read_run; intros _ [= <-] Hp; cbv in Hp; discriminate).
           destruct (truthy _) eqn:Hid.
           ++ destruct (chat_completions_create w _) as [r|e];
                [destruct (choices r)|]; read_run; discriminate.
           ++ intros _ _ _. exists resp. split; [reflexivity|].
              right. exists d. split; assumption.
        -- read_run. intros _ [= <-] Hp. cbv in Hp. discriminate.
      * intros _ _ _. exists resp. split; [reflexivity|]. left. exact Hok.
    + read_run. intros _ [= <-] Hp. cbv in Hp. discriminate.
Qed.

Lemma upload_exception_is_analysis_error_witness :
  (exists resp,
     requests_post world_not_json (sent_upload world_not_json [] (Some pdf_mime) "form.pdf")
       = Returns resp /\
     status_ok (status_code resp) = true /\ json resp = Raises json_error) /\
  chat_requests (events (run (analyze_document world_not_json [] (Some pdf_mime) "form.pdf") 0)) = [] /\
  result (run (analyze_document world_not_json [] (Some pdf_mime) "form.pdf") 0)
    = Val (PyStr "Error during analysis: Expecting value: line 1 column 1 (char 0)").
Proof.
  assert (H : exists resp,
             requests_post world_not_json (sent_upload world_not_json [] (Some pdf_mime) "form.pdf")
               = Returns resp /\
             status_ok (status_code resp) = true /\ json resp = Raises json_error).
  { eexists. split; [reflexivity|]. split; reflexivity. }
  split; [exact H|].
  destruct (upload_exception_is_analysis_error world_not_json [] (Some pdf_mime) "form.pdf" 0)
    as [Hexc _].
  destruct (Hexc json_error (or_intror H)) as [Hchat [Hres _]].
  split; [exact Hchat | exact Hres].
Defined.

(* ================================================================== *)
(** * Input acquisition *)
(* ================================================================== *)

Lemma not_pdf_false (mime_type : option string) :
  not_pdf mime_type = false <-> mime_type = Some pdf_mime.
Proof.
  unfold not_pdf. destruct mime_type as [s|].
  - rewrite negb_false_iff, String.eqb_eq. split; congruence.
  - split; discriminate.
Qed.

Lemma not_pdf_true (mime_type : option string) :
  not_pdf mime_type = true <-> mime_type <> Some pdf_mime.
Proof.
  rewrite <- not_pdf_false. destruct (not_pdf mime_type); split; congruence.
Qed.

Lemma process_uploaded_file_run (w : World) (f : UploadedFile) (start : nat) :
  run (process_uploaded_file w f) start =
  if not_pdf (uf_type f)
  then
    match Image_open w (uf_value f) with
    | (Returns img, n) =>
        (Val (uf_value f, uf_type f, Some img, filename_of f), n, [EvImageOpen (uf_value f)])
    | (Raises e, n) =>
        (Val (uf_value f, uf_type f, None, filename_of f), n,
         [EvImageOpen (uf_value f); preview_warning])
    end
  else (Val (uf_value f, uf_type f, None, filename_of f), start, []).
Proof.
  unfold run, process_uploaded_file, filename_of.
  destruct (not_pdf (uf_type f)); [|reflexivity].
  unfold bind, file_seek, try_except, call_Image_open, emit, ret. cbn [skipn].
  destruct (Image_open w (uf_value f)) as [[img|e] n]; reflexivity.
Qed.

(** C5: for [application/pdf] the decoder is not called, whatever the
    bytes; for any other MIME type it is called once, on the whole
    content; when it raises, the function still returns, with the
    preview absent, after a warning. *)
Theorem preview_only_for_non_pdf :
  forall (w : World) (f : UploadedFile) (start : nat),
    (uf_type f = Some pdf_mime ->
     image_opens (events (run (process_uploaded_file w f) start)) = [] /\
     run (process_uploaded_file w f) start
       = (Val (uf_value f, uf_type f, None, filename_of f), start, [])) /\
    (uf_type f <> Some pdf_mime ->
     image_opens (events (run (process_uploaded_file w f) start)) = [uf_value f]) /\
    (forall e n,
       uf_type f <> Some pdf_mime ->
       Image_open w (uf_value f) = (Raises e, n) ->
       result (run (process_uploaded_file w f) start)
         = Val (uf_value f, uf_type f, None, filename_of f) /\
       events (run (process_uploaded_file w f) start)
         = [EvImageOpen (uf_value f);
            EvStWarning "Could not open the image for preview."]).
Proof.
  intros w f start. rewrite process_uploaded_file_run. split; [|split].
  - intros H. apply not_pdf_false in H. rewrite H. split; reflexivity.
  - intros H. apply not_pdf_true in H. rewrite H.
    destruct (Image_open w (uf_value f)) as [[img|e] n]; reflexivity.
  - intros e n H Himg. apply not_pdf_true in H. rewrite H, Himg. split; reflexivity.
Qed.

Lemma preview_only_for_non_pdf_witness :
  uf_type broken_png <> Some pdf_mime /\
  Image_open world_broken_png (uf_value broken_png) = (Raises decode_error, 3) /\
  result (run (process_uploaded_file world_broken_png broken_png) 7)
    = Val ([x00; x01; x02], Some "image/png", None, "scan.png") /\
  events (run (process_uploaded_file world_broken_png broken_png) 7)
    = [EvImageOpen [x00; x01; x02]; EvStWarning "Could not open the image for preview."].
Proof.
  assert (H : uf_type broken_png <> Some pdf_mime) by discriminate.
  split; [exact H|]. split; [reflexivity|].
  destruct (preview_only_for_non_pdf world_broken_png broken_png 7) as [_ [_ Hfail]].
  exact (Hfail decode_error 3 H eq_refl).
Defined.

(* ================================================================== *)
(** * The main flow *)
(* ================================================================== *)

(** [analyze_document] ends with a value and leaves the read position
    of the uploaded file alone. *)
Lemma analyze_document_total (w : World) (fb : list byte) (mt : option string)
    (fn : string) (c : nat) :
  exists r evs, run (analyze_document w fb mt fn) c = (Val r, c, evs).
Proof.
  run_analyze. cbv zeta.
  destruct (requests_post w _) as [resp|e]; [|eauto].
  destruct (status_ok _); [|eauto].
  destruct (json resp) as [j|e]; [|eauto].
  destruct j; eauto.
  destruct (truthy _); [|eauto].
  destruct (chat_completions_create w _) as [r|e]; [|eauto].
  destruct (choices r); eauto.
Qed.

(** [main] on a file: the header, the events of the acquisition, the
    preview or the notice, the waiting message, the events of the
    analysis of the file's own bytes, the banner and the result. *)
Lemma main_run (w : World) (f : UploadedFile) (start : nat) :
  selected_file w = Some f ->
  exists r evs,
    run (analyze_document w (uf_value f) (uf_type f) (filename_of f))
        (position (run (process_uploaded_file w f) start))
      = (Val r, position (run (process_uploaded_file w f) start), evs) /\
    run (main w) start =
      (Val tt, position (run (process_uploaded_file w f) start),
       (header_events w
        ++ events (run (process_uploaded_file w f) start)
        ++ [match preview_of w f with
            | Some img => EvStImage img "Uploaded/Captured Image" true
            | None => pdf_notice
            end;
            waiting_message]
        ++ evs
        ++ [success_banner; EvStWrite r])%list).
Proof.
  intros Hsel.
  destruct (analyze_document_total w (uf_value f) (uf_type f) (filename_of f)
              (position (run (process_uploaded_file w f) start))) as [r [evs Hrun]].
  exists r, evs. split; [exact Hrun|].
  revert Hrun. rewrite process_uploaded_file_run.
  unfold run, main, selected_file, header_events, preview_of in *.
  unfold bind at 1 2 3 4. unfold emit at 1 2 3 4. cbv beta iota.
  unfold bind at 1.
  destruct (st_radio w =? "Upload File"); unfold bind at 1, emit at 1, ret at 1;
    cbv beta iota; rewrite Hsel; cbv beta iota;
    unfold bind at 1;
    change (process_uploaded_file w f start) with (run (process_uploaded_file w f) start);
    rewrite process_uploaded_file_run;
    (destruct (not_pdf (uf_type f)) eqn:Hpdf;
     [destruct (Image_open w (uf_value f)) as [[img|e] n]|]);
    cbv beta iota; unfold position, fst, snd; intros Hrun;
    unfold bind at 1; unfold show_preview; rewrite Hpdf; unfold emit at 1; cbv beta iota;
    unfold bind at 1; unfold emit at 1; cbv beta iota;
    unfold bind at 1; rewrite Hrun; cbv beta iota;
    unfold bind, emit; cbv beta iota; unfold events, snd;
    reflexivity.
Qed.

Lemma post_requests_app (t1 t2 : list Event) :
  post_requests (t1 ++ t2) = (post_requests t1 ++ post_requests t2)%list.
Proof.
  induction t1 as [|ev t1 IH]; [reflexivity|].
  destruct ev; simpl; rewrite IH; reflexivity.
Qed.

Lemma header_has_no_post (w : World) : post_requests (header_events w) = [].
Proof. unfold header_events. destruct (st_radio w =? "Upload File"); reflexivity. Qed.

(** C6: when the selected file is not a PDF and its bytes do not decode,
    [main] warns, then runs [analyze_document] on the bytes, MIME type
    and name of the uploaded file; the one upload request of the run
    carries exactly the bytes of the uploaded file. *)
Theorem failed_preview_keeps_bytes :
  forall (w : World) (f : UploadedFile) (start : nat) (e : Exn) (n : nat),
    selected_file w = Some f ->
    uf_type f <> Some pdf_mime ->
    Image_open w (uf_value f) = (Raises e, n) ->
    exists r evs,
      run (analyze_document w (uf_value f) (uf_type f) (filename_of f)) n = (Val r, n, evs) /\
      events (run (main w) start)
        = (header_events w
           ++ [EvImageOpen (uf_value f);
               EvStWarning "Could not open the image for preview.";
               EvStWrite (PyStr "PDF file uploaded.");
               EvStWrite (PyStr "Analyzing the document, please wait...")]
           ++ evs
           ++ [EvStSuccess "Analysis Complete"; EvStWrite r])%list /\
      post_requests (events (run (main w) start))
        = [sent_upload w (uf_value f) (uf_type f) (filename_of f)] /\
      post_files (sent_upload w (uf_value f) (uf_type f) (filename_of f))
        = [("file", {| fp_filename := filename_of f;
                       fp_content := uf_value f;
                       fp_content_type := uf_type f |})].
Proof.
  intros w f start e n Hsel Hpdf Himg.
  apply not_pdf_true in Hpdf.
  destruct (main_run w f start Hsel) as [r [evs [Hrun Hmain]]].
  assert (Hp : run (process_uploaded_file w f) start
               = (Val (uf_value f, uf_type f, None, filename_of f), n,
                  [EvImageOpen (uf_value f); preview_warning])).
  { rewrite process_uploaded_file_run, Hpdf, Himg. reflexivity. }
  assert (Hprev : preview_of w f = None).
  { unfold preview_of. rewrite Hpdf, Himg. reflexivity. }
  rewrite Hp in Hrun, Hmain. rewrite Hprev in Hmain.
  cbn [position events fst snd] in Hrun, Hmain.
  exists r, evs. split; [exact Hrun|].
  assert (Hev : events (run (main w) start)
                = (header_events w
                   ++ [EvImageOpen (uf_value f); preview_warning; pdf_notice; waiting_message]
                   ++ evs ++ [success_banner; EvStWrite r])%list).
  { rewrite Hmain. reflexivity. }
  split; [exact Hev|]. split; [|reflexivity].
  rewrite Hev. rewrite !post_requests_app, header_has_no_post.
  pose proof (analyze_document_posts_once w (uf_value f) (uf_type f) (filename_of f) n) as Hpost.
  rewrite Hrun in Hpost. cbn [events snd] in Hpost. rewrite Hpost. reflexivity.
Qed.

Lemma failed_preview_keeps_bytes_witness :
  selected_file world_broken_png = Some broken_png /\
  uf_type broken_png <> Some pdf_mime /\
  Image_open world_broken_png (uf_value broken_png) = (Raises decode_error, 3) /\
  post_requests (events (run (main world_broken_png) 0))
    = [sent_upload world_broken_png [x00; x01; x02] (Some "image/png") "scan.png"].
Proof.
  assert (H : uf_type broken_png <> Some pdf_mime) by discriminate.
  split; [reflexivity|]. split; [exact H|]. split; [reflexivity|].
  destruct (failed_preview_keeps_bytes world_broken_png broken_png 0 decode_error 3
              eq_refl H eq_refl) as [r [evs [_ [_ [Hpost _]]]]].
  exact Hpost.
Defined.

(* ================================================================== *)
(** * Startup *)
(* ================================================================== *)

(** C7: without the key in the environment the script shows the error
    and halts; the run ends there, and nothing it did is a network
    call. *)
Theorem missing_key_halts_before_network :
  forall (w : World) (start : nat),
    getenv_OPENAI_API_KEY w = None ->
    run (script w) start
      = (Stopped, start,
         [EvStError "OpenAI API key not found in environment variable 'OPENAI_API_KEY'."]) /\
    filter is_network_call (events (run (script w) start)) = [].
Proof.
  intros w start Hkey.
  assert (H : run (script w) start
              = (Stopped, start,
                 [EvStError "OpenAI API key not found in environment variable 'OPENAI_API_KEY'."])).
  { unfold run, script, OPENAI_API_KEY. rewrite Hkey. reflexivity. }
  split; [exact H|]. rewrite H. reflexivity.
Qed.

Lemma missing_key_halts_before_network_witness :
  getenv_OPENAI_API_KEY world_without_key = None /\
  result (run (script world_without_key) 0) = Stopped /\
  filter is_network_call (events (run (script world_without_key) 0)) = [].
Proof.
  split; [reflexivity|].
  destruct (missing_key_halts_before_network world_without_key 0 eq_refl) as [Hrun Hnet].
  split; [rewrite Hrun; reflexivity | exact Hnet].
Defined.

(* ================================================================== *)
(** * Presentation *)
(* ================================================================== *)

(** C8, at the failing input: for a PNG upload whose bytes do not
    decode, [main] writes the PDF notice although the input is no PDF. *)
Theorem pdf_notice_shown_for_broken_png :
  uf_type broken_png = Some "image/png" /\
  selected_file world_broken_png = Some broken_png /\
  shows_pdf_notice (events (run (main world_broken_png) 0)) = true /\
  events (run (main world_broken_png) 0)
    = [ EvStTitle "Document analysis tool";
        EvStWrite (PyStr "This tool analyzes documents using OpenAI's GPT-5-Nano model.");
        EvStWrite (PyStr
          "Upload an image (JPEG/PNG) or PDF of the document, or capture one using your camera.");
        EvStRadio "Choose input method:" ["Upload File"; "Capture Image"];
        EvStFileUploader "Choose a file" ["jpg"; "jpeg"; "png"; "pdf"];
        EvImageOpen [x00; x01; x02];
        EvStWarning "Could not open the image for preview.";
        EvStWrite (PyStr "PDF file uploaded.");
        EvStWrite (PyStr "Analyzing the document, please wait...");
        EvRequestsPost (sent_upload world_broken_png [x00; x01; x02] (Some "image/png") "scan.png");
        EvChatCreate (chat_request_for (PyStr "file-123"));
        EvStSuccess "Analysis Complete";
        EvStWrite (PyStr answer_text) ].
Proof. repeat split. Qed.

(* ================================================================== *)
(** * Two end-to-end runs *)
(* ================================================================== *)

(** A PNG, stored as [file-123], analysed: the text of the answer comes
    back as it is. *)
Example png_scenario :
  run (analyze_document world_file_123 [x89; x50; x4e; x47] (Some "image/png") "scan.png") 0
  = (Val (PyStr answer_text), 0,
     [EvRequestsPost
        {| post_url := "https://api.openai.com/v1/files";
           post_headers := [("Authorization", "Bearer sk-test")];
           post_files := [("file", mkFilePart "scan.png" [x89; x50; x4e; x47] (Some "image/png"))];
           post_data := [("purpose", "vision")] |};
      EvChatCreate (chat_request_for (PyStr "file-123"))]).
Proof. vm_compute. reflexivity. Qed.

(** A PDF the service rejects with status 400: the text shows status
    and body, and no chat request is made. *)
Example rejected_pdf_scenario :
  run (analyze_document world_bad_file [x25; x50; x44; x46] (Some pdf_mime) "form.pdf") 0
  = (Val (PyStr ("Error uploading file: 400 - " ++ body_bad_file)), 0,
     [EvRequestsPost
        {| post_url := "https://api.openai.com/v1/files";
           post_headers := [("Authorization", "Bearer sk-test")];
           post_files := [("file", mkFilePart "form.pdf" [x25; x50; x44; x46] (Some pdf_mime))];
           post_data := [("purpose", "user_data")] |}]).
Proof. vm_compute. reflexivity. Qed.

Example py_repr_nested :
  py_repr (PyDict [("object", PyStr "file"); ("n", PyInt (-1));
                   ("l", PyList [PyNone; PyBool true]); ("s", PyStr "it's")])
  = "{'object': 'file', 'n': -1, 'l': [None, True], 's': "
    ++ String dquote ("it's" ++ String dquote "}").
Proof. vm_compute. reflexivity. Qed.

(* ================================================================== *)
(** * Further properties of [analyze_document] *)
(* ================================================================== *)

(** X1: all [analyze_document] does to the outside is the upload, or
    the upload followed by one chat request; the chat request is there
    only for a truthy [id], and references it. *)
Theorem analyze_document_network_discipline :
  forall (w : World) (file_bytes : list byte) (mime_type : option string)
         (filename : string) (start : nat),
    events (run (analyze_document w file_bytes mime_type filename) start)
      = [EvRequestsPost (sent_upload w file_bytes mime_type filename)] \/
    exists resp d id,
      requests_post w (sent_upload w file_bytes mime_type filename) = Returns resp /\
      status_ok (status_code resp) = true /\
      json resp = Returns (PyDict d) /\
      dict_get "id" d = Some id /\
      truthy id = true /\
      events (run (analyze_document w file_bytes mime_type filename) start)
        = [EvRequestsPost (sent_upload w file_bytes mime_type filename);
           EvChatCreate (chat_request_for id)].
Proof.
  intros w fb mt fn start. run_analyze. cbv zeta.
  destruct (requests_post w _) as [resp|e] eqn:Hpost; [|left; reflexivity].
  destruct (status_ok _) eqn:Hok; [|left; reflexivity].
  destruct (json resp) as [j|e] eqn:Hj; [|left; reflexivity].
  destruct j; try (left; reflexivity).
  destruct (truthy _) eqn:Hid; [|left; reflexivity].
  right. exists resp, d.
  destruct (dict_get "id" d) as [id|] eqn:Hget; [|discriminate].
  exists id. repeat (split; [first [reflexivity | assumption]|]).
  destruct (chat_completions_create w _) as [r|e]; [destruct (choices r)|]; reflexivity.
Qed.

(** X2: an [id] of any type is forwarded as it is, provided it is
    truthy: the chat request is issued once with that value as
    [file_id], and nothing else in the [file] object. *)
Theorem truthy_id_is_forwarded :
  forall (w : World) (file_bytes : list byte) (mime_type : option string)
         (filename : string) (start : nat) (resp : Response)
         (d : list (string * PyVal)) (id : PyVal),
    requests_post w (sent_upload w file_bytes mime_type filename) = Returns resp ->
    status_ok (status_code resp) = true ->
    json resp = Returns (PyDict d) ->
    dict_get "id" d = Some id ->
    truthy id = true ->
    chat_requests (events (run (analyze_document w file_bytes mime_type filename) start))
      = [chat_request_for id] /\
    user_file_object (chat_request_for id) = Some (PyDict [("file_id", id)]).
Proof.
  intros w fb mt fn start resp d id Hpost Hok Hj Hget Hid.
  split; [|reflexivity].
  run_analyze. rewrite Hpost, Hok, Hj, Hget. cbv zeta. rewrite Hid.
  destruct (chat_completions_create w _) as [r|e]; [destruct (choices r)|]; reflexivity.
Qed.

Lemma truthy_id_is_forwarded_witness :
  truthy (PyInt 7) = true /\
  chat_requests (events (run (analyze_document world_numeric_id [] (Some pdf_mime) "form.pdf") 0))
    = [chat_request_for (PyInt 7)].
Proof.
  split; [reflexivity|].
  destruct (truthy_id_is_forwarded world_numeric_id [] (Some pdf_mime) "form.pdf" 0
              _ [("id", PyInt 7)] (PyInt 7) eq_refl eq_refl eq_refl eq_refl eq_refl)
    as [H _].
  exact H.
Defined.

(** X3: [analyze_document] leaves the read position of the uploaded
    file where it was, and what it returns and does is the same from
    every read position. *)
Theorem analyze_document_ignores_position :
  forall (w : World) (file_bytes : list byte) (mime_type : option string)
         (filename : string) (start start' : nat),
    position (run (analyze_document w file_bytes mime_type filename) start) = start /\
    result (run (analyze_document w file_bytes mime_type filename) start)
      = result (run (analyze_document w file_bytes mime_type filename) start') /\
    events (run (analyze_document w file_bytes mime_type filename) start)
      = events (run (analyze_document w file_bytes mime_type filename) start').
Proof.
  intros w fb mt fn start start'. run_analyze. run_analyze. cbv zeta.
  destruct (requests_post w _) as [resp|e]; [|repeat split].
  destruct (status_ok _); [|repeat split].
  destruct (json resp) as [j|e]; [|repeat split].
  destruct j; try solve [repeat split].
  destruct (truthy _); [|repeat split].
  destruct (chat_completions_create w _) as [r|e]; [destruct (choices r)|]; repeat split.
Qed.

(* ================================================================== *)
(** * Further properties of the acquisition and of [main] *)
(* ================================================================== *)

Lemma image_opens_app (t1 t2 : list Event) :
  image_opens (t1 ++ t2) = (image_opens t1 ++ image_opens t2)%list.
Proof.
  induction t1 as [|ev t1 IH]; [reflexivity|].
  destruct ev; simpl; rewrite IH; reflexivity.
Qed.

Lemma header_opens_nothing (w : World) : image_opens (header_events w) = [].
Proof. unfold header_events. destruct (st_radio w =? "Upload File"); reflexivity. Qed.

(** The decoder is no business of [analyze_document]. *)
Lemma analyze_document_opens_nothing (w : World) (fb : list byte) (mt : option string)
    (fn : string) (start : nat) :
  image_opens (events (run (analyze_document w fb mt fn) start)) = [].
Proof.
  run_analyze. cbv zeta.
  destruct (requests_post w _) as [resp|e]; [|reflexivity].
  destruct (status_ok _); [|reflexivity].
  destruct (json resp) as [j|e]; [|reflexivity].
  destruct j; try reflexivity.
  destruct (truthy _); [|reflexivity].
  destruct (chat_completions_create w _) as [r|e]; [|reflexivity].
  destruct (choices r); reflexivity.
Qed.

(** X4: [process_uploaded_file] always returns: the bytes and the MIME
    type of the upload as they are, its name or [uploaded_document] when
    it has none, and a preview exactly when the file is no PDF and the
    decoder returned an image.  The warning is emitted exactly when the
    file is no PDF and the decoder raised. *)
Theorem process_uploaded_file_returns_the_upload :
  forall (w : World) (f : UploadedFile) (start : nat),
    exists preview,
      result (run (process_uploaded_file w f) start)
        = Val (uf_value f, uf_type f, preview,
               match uf_name f with Some n => n | None => "uploaded_document" end) /\
      (forall img,
         preview = Some img <->
         uf_type f <> Some pdf_mime /\ exists n, Image_open w (uf_value f) = (Returns img, n)) /\
      (In (EvStWarning "Could not open the image for preview.")
          (events (run (process_uploaded_file w f) start)) <->
       uf_type f <> Some pdf_mime /\ exists e n, Image_open w (uf_value f) = (Raises e, n)).
Proof.
  intros w f start. rewrite process_uploaded_file_run.
  destruct (not_pdf (uf_type f)) eqn:Hpdf.
  - apply not_pdf_true in Hpdf.
    destruct (Image_open w (uf_value f)) as [[img|e] n] eqn:Himg.
    + exists (Some img). split; [reflexivity|]. split.
      * intros img'. split.
        -- intros [= <-]. split; [exact Hpdf|]. exists n. reflexivity.
        -- intros [_ [n' [= <- _]]]. reflexivity.
      * split.
        -- intros [H|[]]. discriminate.
        -- intros [_ [e [n' H]]]. discriminate.
    + exists None. split; [reflexivity|]. split.
      * intros img. split; [discriminate|]. intros [_ [n' H]]. discriminate.
      * split.
        -- intros _. split; [exact Hpdf|]. exists e, n. reflexivity.
        -- intros _. right. left. reflexivity.
  - apply not_pdf_false in Hpdf. exists None. split; [reflexivity|]. split.
    + intros img. split; [discriminate|]. intros [H _]. contradiction.
    + split; [intros []|]. intros [H _]. contradiction.
Qed.

(** [main] without a file shows the header and returns. *)
Lemma main_without_file (w : World) (start : nat) :
  selected_file w = None -> run (main w) start = (Val tt, start, header_events w).
Proof.
  unfold run, main, selected_file, header_events.
  unfold bind at 1 2 3 4. unfold emit at 1 2 3 4. cbv beta iota.
  unfold bind at 1.
  destruct (st_radio w =? "Upload File"); intros Hsel;
    unfold bind at 1, emit at 1, ret at 1; cbv beta iota; rewrite Hsel; reflexivity.
Qed.

(** X5: as long as the selected control holds no file, [main] shows the
    header and the control and stops there: no decode, no upload, no
    chat request, no banner. *)
Theorem main_waits_for_a_file :
  forall (w : World) (start : nat),
    selected_file w = None ->
    result (run (main w) start) = Val tt /\
    position (run (main w) start) = start /\
    events (run (main w) start)
      = [ EvStTitle "Document analysis tool";
          EvStWrite (PyStr "This tool analyzes documents using OpenAI's GPT-5-Nano model.");
          EvStWrite (PyStr
            "Upload an image (JPEG/PNG) or PDF of the document, or capture one using your camera.");
          EvStRadio "Choose input method:" ["Upload File"; "Capture Image"];
          if st_radio w =? "Upload File"
          then EvStFileUploader "Choose a file" ["jpg"; "jpeg"; "png"; "pdf"]
          else EvStCameraInput "Capture an image" ] /\
    filter is_network_call (events (run (main w) start)) = [] /\
    image_opens (events (run (main w) start)) = [].
Proof.
  intros w start Hsel. rewrite (main_without_file w start Hsel).
  repeat split; cbn [events snd]; unfold header_events;
    destruct (st_radio w =? "Upload File"); reflexivity.
Qed.

Lemma main_waits_for_a_file_witness :
  selected_file world_idle = None /\
  filter is_network_call (events (run (main world_idle) 0)) = [].
Proof.
  split; [reflexivity|].
  destruct (main_waits_for_a_file world_idle 0 eq_refl) as [_ [_ [_ [H _]]]].
  exact H.
Defined.

(** X6: when the selected file is no PDF and decodes, [main] shows the
    image with its caption, not the PDF notice, and goes on to the
    analysis of the file's bytes, the banner and the result. *)
Theorem decoded_preview_is_shown :
  forall (w : World) (f : UploadedFile) (start : nat) (img : Image) (n : nat),
    selected_file w = Some f ->
    uf_type f <> Some pdf_mime ->
    Image_open w (uf_value f) = (Returns img, n) ->
    exists r evs,
      run (analyze_document w (uf_value f) (uf_type f) (filename_of f)) n = (Val r, n, evs) /\
      run (main w) start
        = (Val tt, n,
           (header_events w
            ++ [EvImageOpen (uf_value f);
                EvStImage img "Uploaded/Captured Image" true;
                EvStWrite (PyStr "Analyzing the document, please wait...")]
            ++ evs
            ++ [EvStSuccess "Analysis Complete"; EvStWrite r])%list).
Proof.
  intros w f start img n Hsel Hpdf Himg.
  apply not_pdf_true in Hpdf.
  destruct (main_run w f start Hsel) as [r [evs [Hrun Hmain]]].
  assert (Hp : run (process_uploaded_file w f) start
               = (Val (uf_value f, uf_type f, Some img, filename_of f), n,
                  [EvImageOpen (uf_value f)])).
  { rewrite process_uploaded_file_run, Hpdf, Himg. reflexivity. }
  assert (Hprev : preview_of w f = Some img).
  { unfold preview_of. rewrite Hpdf, Himg. reflexivity. }
  rewrite Hp in Hrun, Hmain. rewrite Hprev in Hmain.
  cbn [position events fst snd] in Hrun, Hmain.
  exists r, evs. split; [exact Hrun|]. rewrite Hmain. reflexivity.
Qed.

Lemma decoded_preview_is_shown_witness :
  selected_file world_camera = Some captured_jpeg /\
  uf_type captured_jpeg <> Some pdf_mime /\
  Image_open world_camera (uf_value captured_jpeg) = (Returns decoded_jpeg, 4) /\
  exists r evs,
    run (main world_camera) 9
      = (Val tt, 4,
         (header_events world_camera
          ++ [EvImageOpen (uf_value captured_jpeg);
              EvStImage decoded_jpeg "Uploaded/Captured Image" true;
              EvStWrite (PyStr "Analyzing the document, please wait...")]
          ++ evs
          ++ [EvStSuccess "Analysis Complete"; EvStWrite r])%list).
Proof.
  assert (H : uf_type captured_jpeg <> Some pdf_mime) by discriminate.
  split; [reflexivity|]. split; [exact H|]. split; [reflexivity|].
  destruct (decoded_preview_is_shown world_camera captured_jpeg 9 decoded_jpeg 4
              eq_refl H eq_refl) as [r [evs [_ Hmain]]].
  exists r, evs. exact Hmain.
Defined.

(** X7: for a PDF [main] does not touch the file: no seek, no decode,
    the read position stays; it shows the notice and the waiting message
    and uploads the bytes with purpose [user_data]. *)
Theorem pdf_is_uploaded_unopened :
  forall (w : World) (f : UploadedFile) (start : nat),
    selected_file w = Some f ->
    uf_type f = Some pdf_mime ->
    exists r evs,
      run (analyze_document w (uf_value f) (Some pdf_mime) (filename_of f)) start
        = (Val r, start, evs) /\
      run (main w) start
        = (Val tt, start,
           (header_events w
            ++ [EvStWrite (PyStr "PDF file uploaded.");
                EvStWrite (PyStr "Analyzing the document, please wait...")]
            ++ evs
            ++ [EvStSuccess "Analysis Complete"; EvStWrite r])%list) /\
      image_opens (events (run (main w) start)) = [] /\
      post_requests evs
        = [upload_request w (uf_value f) (Some pdf_mime) (filename_of f) "user_data"].
Proof.
  intros w f start Hsel Hpdf.
  destruct (main_run w f start Hsel) as [r [evs [Hrun Hmain]]].
  assert (Hnp : not_pdf (uf_type f) = false) by (apply not_pdf_false; exact Hpdf).
  assert (Hp : run (process_uploaded_file w f) start
               = (Val (uf_value f, uf_type f, None, filename_of f), start, [])).
  { rewrite process_uploaded_file_run, Hnp. reflexivity. }
  assert (Hprev : preview_of w f = None).
  { unfold preview_of. rewrite Hnp. reflexivity. }
  rewrite Hp in Hrun, Hmain. rewrite Hprev in Hmain.
  cbn [position events fst snd] in Hrun, Hmain. rewrite Hpdf in Hrun.
  pose proof (analyze_document_opens_nothing w (uf_value f) (Some pdf_mime)
                (filename_of f) start) as Hnet.
  pose proof (analyze_document_posts_once w (uf_value f) (Some pdf_mime)
                (filename_of f) start) as Hpost.
  rewrite Hrun in Hnet, Hpost. cbn [events snd] in Hnet, Hpost.
  exists r, evs. split; [exact Hrun|]. split; [exact Hmain|]. split; [|exact Hpost].
  rewrite Hmain. cbn [events snd].
  rewrite !image_opens_app, header_opens_nothing, Hnet. reflexivity.
Qed.

Lemma pdf_is_uploaded_unopened_witness :
  selected_file world_pdf_offline = Some some_pdf /\
  uf_type some_pdf = Some pdf_mime /\
  image_opens (events (run (main world_pdf_offline) 5)) = [] /\
  position (run (main world_pdf_offline) 5) = 5.
Proof.
  split; [reflexivity|]. split; [reflexivity|].
  destruct (pdf_is_uploaded_unopened world_pdf_offline some_pdf 5 eq_refl eq_refl)
    as [r [evs [_ [Hmain [Hopen _]]]]].
  split; [exact Hopen|]. rewrite Hmain. reflexivity.
Defined.


(** X8: whatever the analysis returns, [main] shows it under the
    success banner; when the POST raises, what stands under the banner
    is the error text. *)
Theorem banner_shown_whatever_the_result :
  forall (w : World) (f : UploadedFile) (start : nat),
    selected_file w = Some f ->
    (exists pre r evs,
       run (analyze_document w (uf_value f) (uf_type f) (filename_of f))
           (position (run (process_uploaded_file w f) start))
         = (Val r, position (run (process_uploaded_file w f) start), evs) /\
       events (run (main w) start)
         = (pre ++ evs ++ [EvStSuccess "Analysis Complete"; EvStWrite r])%list) /\
    (forall e,
       requests_post w (sent_upload w (uf_value f) (uf_type f) (filename_of f)) = Raises e ->
       exists pre,
         events (run (main w) start)
           = (pre ++ [EvStWrite (PyStr "Analyzing the document, please wait...");
                      EvRequestsPost (sent_upload w (uf_value f) (uf_type f) (filename_of f));
                      EvStSuccess "Analysis Complete";
                      EvStWrite (PyStr ("Error during analysis: " ++ exn_str e))])%list).
Proof.
  intros w f start Hsel.
  destruct (main_run w f start Hsel) as [r [evs [Hrun Hmain]]].
  split.
  - exists (header_events w ++ events (run (process_uploaded_file w f) start)
            ++ [match preview_of w f with
                | Some img => EvStImage img "Uploaded/Captured Image" true
                | None => pdf_notice
                end; waiting_message])%list, r, evs.
    split; [exact Hrun|]. rewrite Hmain. cbn [events snd].
    rewrite <- !app_assoc. reflexivity.
  - intros e Hpost.
    assert (Ha : run (analyze_document w (uf_value f) (uf_type f) (filename_of f))
                     (position (run (process_uploaded_file w f) start))
                 = (Val (analysis_error e), position (run (process_uploaded_file w f) start),
                    [EvRequestsPost (sent_upload w (uf_value f) (uf_type f) (filename_of f))])).
    { run_analyze. rewrite Hpost. reflexivity. }
    rewrite Ha in Hrun. injection Hrun as <- <-.
    exists (header_events w ++ events (run (process_uploaded_file w f) start)
            ++ [match preview_of w f with
                | Some img => EvStImage img "Uploaded/Captured Image" true
                | None => pdf_notice
                end])%list.
    rewrite Hmain. cbn [events snd]. rewrite <- !app_assoc. reflexivity.
Qed.

Lemma banner_shown_whatever_the_result_witness :
  selected_file world_pdf_offline = Some some_pdf /\
  exists pre,
    events (run (main world_pdf_offline) 0)
      = (pre ++ [EvStWrite (PyStr "Analyzing the document, please wait...");
                 EvRequestsPost (sent_upload world_pdf_offline [x25; x50; x44; x46]
                                   (Some pdf_mime) "form.pdf");
                 EvStSuccess "Analysis Complete";
                 EvStWrite (PyStr "Error during analysis: connection refused")])%list.
Proof.
  split; [reflexivity|].
  destruct (banner_shown_whatever_the_result world_pdf_offline some_pdf 0 eq_refl) as [_ H].
  exact (H connection_error eq_refl).
Defined.

Lemma process_events_are_local (w : World) (f : UploadedFile) (start : nat) :
  filter is_network_call (events (run (process_uploaded_file w f) start)) = [] /\
  post_requests (events (run (process_uploaded_file w f) start)) = [].
Proof.
  rewrite process_uploaded_file_run.
  destruct (not_pdf (uf_type f)); [|split; reflexivity].
  destruct (Image_open w (uf_value f)) as [[img|e] n]; split; reflexivity.
Qed.


Lemma main_ends_normally (w : World) (start : nat) : result (run (main w) start) = Val tt.
Proof.
  destruct (selected_file w) as [f|] eqn:Hsel.
  - destruct (main_run w f start Hsel) as [r [evs [_ ->]]]. reflexivity.
  - rewrite (main_without_file w start Hsel). reflexivity.
Qed.


(* ================================================================== *)
(** * Further properties of the startup *)
(* ================================================================== *)

Lemma script_run (w : World) (start : nat) :
  run (script w) start =
  if truthy (of_optional (getenv_OPENAI_API_KEY w))
  then run (main w) start
  else (Stopped, start, [missing_key_error]).
Proof.
  unfold run, script, OPENAI_API_KEY.
  destruct (truthy (of_optional (getenv_OPENAI_API_KEY w))); cbn [negb].
  - unfold bind at 1. unfold ret at 1. cbv beta iota.
    destruct (main w start) as [[r c] evs]. reflexivity.
  - reflexivity.
Qed.

(** X10: the startup guard tests the key for truthiness: an empty key
    halts the script like a missing one, with the same error and nothing
    else; with any other key the script is the run of [main]. *)
Theorem startup_guard_rejects_empty_key :
  forall (w : World) (start : nat),
    (getenv_OPENAI_API_KEY w = Some EmptyString ->
     run (script w) start
       = (Stopped, start,
          [EvStError "OpenAI API key not found in environment variable 'OPENAI_API_KEY'."])) /\
    (forall k,
       getenv_OPENAI_API_KEY w = Some k -> k <> EmptyString ->
       run (script w) start = run (main w) start) /\
    (result (run (script w) start) = Stopped <->
     getenv_OPENAI_API_KEY w = None \/ getenv_OPENAI_API_KEY w = Some EmptyString).
Proof.
  intros w start. rewrite script_run. split; [|split].
  - intros ->. reflexivity.
  - intros k -> Hk. apply String.eqb_neq in Hk. cbn [of_optional truthy].
    rewrite Hk. reflexivity.
  - destruct (getenv_OPENAI_API_KEY w) as [k|]; cbn [of_optional truthy].
    + destruct (String.eqb_spec k EmptyString) as [->|Hk]; cbn [negb].
      * split; [intros _; right; reflexivity | reflexivity].
      * rewrite main_ends_normally. split; [discriminate|].
        intros [H|[= H]]; [discriminate | contradiction].
    + split; [intros _; left; reflexivity | reflexivity].
Qed.

Lemma startup_guard_rejects_empty_key_witness :
  getenv_OPENAI_API_KEY world_camera = Some "sk-test" /\
  "sk-test" <> EmptyString /\
  run (script world_camera) 0 = run (main world_camera) 0.
Proof.
  assert (H : "sk-test" <> EmptyString) by discriminate.
  split; [reflexivity|]. split; [exact H|].
  destruct (startup_guard_rejects_empty_key world_camera 0) as [_ [Hrun _]].
  exact (Hrun "sk-test" eq_refl H).
Defined.

(** X11: every upload a run of the script makes goes to the files
    endpoint with the header [Authorization: Bearer <key>] for the
    nonempty key of the environment, and carries the bytes, MIME type
    and name of the file the user selected. *)
Theorem uploads_carry_the_key :
  forall (w : World) (start : nat) (r : PostRequest),
    In r (post_requests (events (run (script w) start))) ->
    exists k f,
      getenv_OPENAI_API_KEY w = Some k /\ k <> EmptyString /\
      selected_file w = Some f /\
      post_url r = "https://api.openai.com/v1/files" /\
      post_headers r = [("Authorization", "Bearer " ++ k)] /\
      post_files r = [("file", {| fp_filename := filename_of f;
                                  fp_content := uf_value f;
                                  fp_content_type := uf_type f |})].
Proof.
  intros w start r. rewrite script_run.
  destruct (getenv_OPENAI_API_KEY w) as [k|] eqn:Hkey; cbn [of_optional truthy];
    [|intros []].
  destruct (String.eqb_spec k EmptyString) as [->|Hk]; cbn [negb]; [intros []|].
  destruct (selected_file w) as [f|] eqn:Hsel.
  - destruct (main_run w f start Hsel) as [res [evs [Hrun Hmain]]].
    pose proof (analyze_document_posts_once w (uf_value f) (uf_type f) (filename_of f)
                  (position (run (process_uploaded_file w f) start))) as Hpost.
    rewrite Hrun in Hpost. cbn [events snd] in Hpost.
    destruct (process_events_are_local w f start) as [_ Hnopost].
    rewrite Hmain. cbn [events snd].
    rewrite !post_requests_app, header_has_no_post, Hnopost, Hpost.
    destruct (preview_of w f); cbn [post_requests app]; intros [<-|[]];
      exists k, f; unfold sent_upload, upload_request, OPENAI_API_KEY; rewrite Hkey;
      repeat split; assumption.
  - rewrite (main_without_file w start Hsel). cbn [events snd].
    rewrite header_has_no_post. intros [].
Qed.

Lemma uploads_carry_the_key_witness :
  In (sent_upload world_camera [xff; xd8; xff; xe0] (Some "image/jpeg") "uploaded_document")
     (post_requests (events (run (script world_camera) 0))) /\
  exists k f,
    getenv_OPENAI_API_KEY world_camera = Some k /\ k <> EmptyString /\
    selected_file world_camera = Some f /\
    post_headers (sent_upload world_camera [xff; xd8; xff; xe0] (Some "image/jpeg")
                    "uploaded_document")
      = [("Authorization", "Bearer " ++ k)].
Proof.
  assert (H : In (sent_upload world_camera [xff; xd8; xff; xe0] (Some "image/jpeg")
                    "uploaded_document")
                 (post_requests (events (run (script world_camera) 0)))).
  { left. reflexivity. }
  split; [exact H|].
  destruct (uploads_carry_the_key world_camera 0 _ H) as [k [f [Hk [Hne [Hf [_ [Hh _]]]]]]].
  exists k, f. repeat split; assumption.
Defined.
